(** * safe_strip: the text normaliser of debug_float_error.py

    The script reproduces ['float' object has no attribute 'strip'] on a
    row of an e-mail table whose [sender_email] cell is missing, and then
    proposes the helper

<<
    def safe_strip(value):
        # docstring: Safely convert to string and strip, handling
        # NaN/None/float values
        if pd.isna(value) or value is None:
            return ''
        return str(value).strip()
>>

    This file embeds the Python values the helper can be handed, the three
    library operations it calls ([pd.isna], [str], [str.strip]) and the
    helper itself, and proves the properties of the normaliser. *)

From Stdlib Require Import List Bool ZArith NArith Ascii String.
From Stdlib Require Import Numbers.DecimalString Numbers.DecimalPos.
From Stdlib Require Import Floats.SpecFloat.
Import ListNotations.

(** ** Text

    A Python [str] is a sequence of Unicode code points. *)

Definition codepoint := N.
Definition pystr := list codepoint.

(** An ASCII literal as Python text. *)
Definition lit (s : string) : pystr :=
  map N_of_ascii (list_ascii_of_string s).

(** The whitespace test [str.strip()] applies to a code point when it is
    called without an argument: U+0009..U+000D, U+001C..U+0020, U+0085,
    U+00A0, U+1680, U+2000..U+200A, U+2028, U+2029, U+202F, U+205F and
    U+3000. *)
Definition py_isspace (c : codepoint) : bool :=
  ((9 <=? c) && (c <=? 13) || (28 <=? c) && (c <=? 32)
   || (c =? 133) || (c =? 160) || (c =? 5760)
   || (8192 <=? c) && (c <=? 8202)
   || (c =? 8232) || (c =? 8233) || (c =? 8239) || (c =? 8287)
   || (c =? 12288))%N.

(** [str.strip()] scans from the left end over whitespace, then from the
    right end over whitespace, and returns the slice in between. *)
Fixpoint lstrip (s : pystr) : pystr :=
  match s with
  | [] => []
  | c :: t => if py_isspace c then lstrip t else s
  end.

Definition rstrip (s : pystr) : pystr := rev (lstrip (rev s)).

Definition strip (s : pystr) : pystr := rstrip (lstrip s).

(** [sep.join(parts)]. *)
Fixpoint join (sep : pystr) (parts : list pystr) : pystr :=
  match parts with
  | [] => []
  | [p] => p
  | p :: rest => p ++ sep ++ join sep rest
  end.

(** No whitespace at the left end. *)
Definition left_clean (s : pystr) : bool :=
  match s with
  | [] => true
  | c :: _ => negb (py_isspace c)
  end.

(** ** Values

    A cell of the table reaches the helper as a scalar: [None], a [bool], an
    [int] (unbounded), a [float] (with its zeros, infinities and NaN) or a
    [str]. *)
Inductive scalar : Type :=
| SNone
| SBool (b : bool)
| SInt (z : Z)
| SFloat (f : spec_float)
| SStr (s : pystr).

(** The helper takes any object. Besides the scalars the model has the
    simplest object on which [pd.isna] does not answer with one boolean: a
    list of scalars, here with its first element apart so that it is never
    empty (what the truth value of an empty array is depends on the NumPy
    release). *)
Inductive value : Type :=
| Scalar (x : scalar)
| VList (x : scalar) (xs : list scalar).

(** The absence markers of the table: [None] and the float NaN. *)
Inductive absence_marker : scalar -> Prop :=
| absent_None : absence_marker SNone
| absent_NaN : absence_marker (SFloat S754_nan).

Definition is_text (x : scalar) : bool :=
  match x with
  | SStr _ => true
  | _ => false
  end.

(** ** Exceptions, results and the interpreter's observable state *)

Inductive exn : Type :=
| ValueError.

Inductive result (A : Type) : Type :=
| Ok (a : A)
| Raise (e : exn).

Arguments Ok {A} a.
Arguments Raise {A} e.

Definition rmap {A B : Type} (f : A -> B) (r : result A) : result B :=
  match r with
  | Ok a => Ok (f a)
  | Raise e => Raise e
  end.

Definition rbind {A B : Type} (r : result A) (k : A -> result B) : result B :=
  match r with
  | Ok a => k a
  | Raise e => Raise e
  end.

(** What one call can leave behind for the next: the lines written to
    standard output so far. The script keeps no other state between the
    statements modelled here. *)
Definition world := list pystr.

(** A computation runs in a world, returns or raises, and leaves a world. *)
Definition M (A : Type) : Type := world -> result A * world.

Definition ret {A : Type} (a : A) : M A := fun w => (Ok a, w).

Definition bind {A B : Type} (c : M A) (k : A -> M B) : M B :=
  fun w =>
    match c w with
    | (Ok a, w') => k a w'
    | (Raise e, w') => (Raise e, w')
    end.

(** A library call that computes and touches nothing. *)
Definition call {A : Type} (r : result A) : M A := fun w => (r, w).

(** [print(line)]. *)
Definition print (line : pystr) : M unit := fun w => (Ok tt, w ++ [line]).

Notation "x <- c ;; k" := (bind c (fun x => k))
  (at level 61, c at next level, right associativity).
Notation "c ;;; k" := (bind c (fun _ => k))
  (at level 61, right associativity).

(** ** pandas.isna *)

(** [pandas._libs.missing.checknull] on a scalar: [None] and a float that is
    not equal to itself. *)
Definition checknull (x : scalar) : bool :=
  match x with
  | SNone => true
  | SFloat S754_nan => true
  | _ => false
  end.

(** [pd.isna] answers a scalar with a boolean and a list with a boolean
    array, one entry per element. *)
Inductive isna_result : Type :=
| NaBool (b : bool)
| NaArray (bs : list bool).

Definition pd_isna (v : value) : isna_result :=
  match v with
  | Scalar x => NaBool (checknull x)
  | VList x xs => NaArray (map checknull (x :: xs))
  end.

(** The truth value [if] and [or] ask of that answer. An array of one entry
    has the truth value of the entry; an array of several raises
    [ValueError] (the truth value of an array with more than one element is
    ambiguous). No [value] gives the empty array. *)
Definition truth (r : isna_result) : result bool :=
  match r with
  | NaBool b => Ok b
  | NaArray [b] => Ok b
  | NaArray _ => Raise ValueError
  end.

(** [value is None]. *)
Definition is_None (v : value) : bool :=
  match v with
  | Scalar SNone => true
  | _ => false
  end.

(** ** str *)

Definition uint_digits (z : Z) : N :=
  N.of_nat (String.length (NilEmpty.string_of_uint (N.to_uint (Z.abs_N z)))).

Definition bool_str (b : bool) : pystr :=
  if b then lit "True" else lit "False".

(** What the host interpreter supplies and this file does not compute:
    - [float_repr sign mantissa exponent], the shortest decimal text that
      reads back as the finite non-zero float;
    - [str_repr s], the quoted and escaped form of the text [s];
    - [int_max_str_digits], the limit [sys.get_int_max_str_digits()] on
      the decimal digits of an [int] converted to text, 0 for no limit
      (4300 by default since CPython 3.11, never between 1 and 639). *)
Record host : Type := {
  float_repr : bool -> positive -> Z -> pystr;
  str_repr : pystr -> pystr;
  int_max_str_digits : N
}.

(** An [int] short enough for [str]. *)
Definition int_fits (h : host) (z : Z) : bool :=
  ((int_max_str_digits h =? 0) || (uint_digits z <=? int_max_str_digits h))%N.

Definition int_str (h : host) (z : Z) : result pystr :=
  if int_fits h z
  then Ok (lit (NilEmpty.string_of_int (Z.to_int z)))
  else Raise ValueError.

Definition float_str (h : host) (f : spec_float) : pystr :=
  match f with
  | S754_nan => lit "nan"
  | S754_infinity s => if s then lit "-inf" else lit "inf"
  | S754_zero s => if s then lit "-0.0" else lit "0.0"
  | S754_finite s m e => float_repr h s m e
  end.

(** [str(x)] for a scalar. *)
Definition scalar_str (h : host) (x : scalar) : result pystr :=
  match x with
  | SNone => Ok (lit "None")
  | SBool b => Ok (bool_str b)
  | SInt z => int_str h z
  | SFloat f => Ok (float_str h f)
  | SStr s => Ok s
  end.

(** [repr(x)] for a scalar: as [str(x)], but for text. *)
Definition scalar_repr (h : host) (x : scalar) : result pystr :=
  match x with
  | SStr s => Ok (str_repr h s)
  | _ => scalar_str h x
  end.

Fixpoint reprs (h : host) (xs : list scalar) : result (list pystr) :=
  match xs with
  | [] => Ok []
  | x :: rest =>
      rbind (scalar_repr h x) (fun r => rmap (cons r) (reprs h rest))
  end.

(** [str(value)]: a list shows the [repr] of its elements between
    brackets. *)
Definition py_str (h : host) (v : value) : result pystr :=
  match v with
  | Scalar x => scalar_str h x
  | VList x xs =>
      rmap (fun rs => lit "[" ++ join (lit ", ") rs ++ lit "]")
           (reprs h (x :: xs))
  end.

(** A scalar whose [str] returns: every scalar but an [int] over the
    digit limit. *)
Definition str_returns (h : host) (x : scalar) : bool :=
  match x with
  | SInt z => int_fits h z
  | _ => true
  end.

(** ** The helper (lines 47 to 51)

    [a or b] asks [a] for its truth value, which is where an array can
    raise, and evaluates [b] only when that is false; [value is None]
    cannot raise. [str] is reached only when the test is false. *)

Definition safe_strip (h : host) (value : value) : M pystr :=
  na <- call (truth (pd_isna value)) ;;
  if (if na then true else is_None value)
  then ret []
  else
    s <- call (py_str h value) ;;
    ret (strip s).

(** The helper without its second test, for comparison with [safe_strip]:
<<
    if pd.isna(value):
        return ''
    return str(value).strip()
>> *)
Definition safe_strip_isna_only (h : host) (value : value) : M pystr :=
  na <- call (truth (pd_isna value)) ;;
  if na
  then ret []
  else
    s <- call (py_str h value) ;;
    ret (strip s).

(** ** The three lines that try the helper (lines 54 to 56)

    [email_data] is the row read from the table; its three fields are all
    the script looks up. *)
Record email : Type := {
  subject : value;
  body : value;
  sender_email : value
}.

(** U+2705, the check mark that opens each line. *)
Definition check_mark : pystr := [9989%N].

Definition test_the_fix (h : host) (email_data : email) : M unit :=
  s1 <- safe_strip h (sender_email email_data) ;;
  print (check_mark ++ lit " Fixed sender_email: " ++ str_repr h s1) ;;;
  s2 <- safe_strip h (subject email_data) ;;
  print (check_mark ++ lit " Fixed subject: " ++ str_repr h s2) ;;;
  s3 <- safe_strip h (body email_data) ;;
  print (check_mark ++ lit " Fixed body: " ++ str_repr h s3).

(** ** The row and the expression that fails (lines 14, 25, 31 and 37)

    [email_data] is a [dict] from column names to cells. The script reads a
    field with [email_data.get(key, '')], which answers the empty text for
    a key the row does not have, and calls [.strip()] on what it gets. Only
    a [str] has that method: on any other object the call raises
    [AttributeError], whose message names the type of the object. *)

Fixpoint pystr_eqb (s t : pystr) : bool :=
  match s, t with
  | [], [] => true
  | c :: s', d :: t' => (c =? d)%N && pystr_eqb s' t'
  | _, _ => false
  end.

Definition pydict := list (pystr * value).

Fixpoint dict_lookup (d : pydict) (key : pystr) : option value :=
  match d with
  | [] => None
  | (k, v) :: rest => if pystr_eqb k key then Some v else dict_lookup rest key
  end.

(** [d.get(key, default)]. *)
Definition dict_get (d : pydict) (key : pystr) (default : value) : value :=
  match dict_lookup d key with
  | Some v => v
  | None => default
  end.

(** [type(v).__name__]. *)
Definition type_name (v : value) : pystr :=
  match v with
  | Scalar SNone => lit "NoneType"
  | Scalar (SBool _) => lit "bool"
  | Scalar (SInt _) => lit "int"
  | Scalar (SFloat _) => lit "float"
  | Scalar (SStr _) => lit "str"
  | VList _ _ => lit "list"
  end.

(** What [v.strip()] comes to: the stripped text, or the message of the
    [AttributeError] it raises. *)
Inductive attempt : Type :=
| Worked (s : pystr)
| Failed (message : pystr).

Definition no_strip_message (v : value) : pystr :=
  lit "'" ++ type_name v ++ lit "' object has no attribute 'strip'".

Definition attr_strip (v : value) : attempt :=
  match v with
  | Scalar (SStr s) => Worked (strip s)
  | _ => Failed (no_strip_message v)
  end.

(** [email_data.get(key, '').strip()]. *)
Definition get_strip (email_data : pydict) (key : pystr) : attempt :=
  attr_strip (dict_get email_data key (Scalar (SStr []))).

(** A text of whitespace only; the empty text is one. *)
Definition blank (s : pystr) : bool := forallb py_isspace s.

(** A text without any whitespace. *)
Definition spaceless (s : pystr) : bool :=
  forallb (fun c => negb (py_isspace c)) s.

(** ** A host for the examples

    CPython's default limit of 4300 digits. The examples convert no finite
    non-zero float and quote no text, so the two texts the host would
    compute for those are left empty. *)
Definition example_host : host := {|
  float_repr := fun _ _ _ => [];
  str_repr := fun _ => [];
  int_max_str_digits := 4300
|}.

(** The same host with a text for the finite floats, for the examples that
    need one that is not blank. *)
Definition example_host_floats : host := {|
  float_repr := fun _ _ _ => lit "1.5";
  str_repr := fun _ => [];
  int_max_str_digits := 4300
|}.

(** A row like the second of the table: its [sender_email] cell is
    missing, and it has no [reply_to] column. *)
Definition example_row : pydict :=
  [ (lit "subject", Scalar (SStr (lit " Re: lunch ")));
    (lit "body", Scalar (SStr (lit "See you at noon.")));
    (lit "sender_email", Scalar (SFloat S754_nan)) ].

(** * Properties *)

Section Properties.

Variable h : host.

(** ** Stripping *)

Lemma lstrip_left_clean (s : pystr) : left_clean (lstrip s) = true.
Proof.
  induction s as [|c t IH]; simpl; trivial.
  destruct (py_isspace c) eqn:E; trivial.
  simpl. now rewrite E.
Qed.

Lemma lstrip_fixed (s : pystr) : left_clean s = true -> lstrip s = s.
Proof.
  destruct s as [|c t]; simpl; trivial.
  now destruct (py_isspace c).
Qed.

Lemma lstrip_idem (s : pystr) : lstrip (lstrip s) = lstrip s.
Proof. apply lstrip_fixed, lstrip_left_clean. Qed.

(** A character that is not whitespace stops the left scan wherever it
    stands; here it stands last. *)
Lemma lstrip_snoc (s : pystr) (c : codepoint) :
  py_isspace c = false -> lstrip (s ++ [c]) = lstrip s ++ [c].
Proof.
  intros Hc. induction s as [|d t IH]; simpl.
  - now rewrite Hc.
  - destruct (py_isspace d); trivial.
Qed.

Lemma rstrip_cons (c : codepoint) (s : pystr) :
  py_isspace c = false -> rstrip (c :: s) = c :: rstrip s.
Proof.
  intros Hc. unfold rstrip. simpl.
  rewrite lstrip_snoc by assumption.
  now rewrite rev_app_distr.
Qed.

Lemma rstrip_left_clean (s : pystr) :
  left_clean s = true -> left_clean (rstrip s) = true.
Proof.
  destruct s as [|c t]; simpl; trivial.
  intros Hc. apply negb_true_iff in Hc.
  rewrite rstrip_cons by assumption. simpl. now rewrite Hc.
Qed.

Lemma rstrip_idem (s : pystr) : rstrip (rstrip s) = rstrip s.
Proof.
  unfold rstrip. now rewrite rev_involutive, lstrip_idem.
Qed.

Lemma strip_left_clean (s : pystr) : left_clean (strip s) = true.
Proof. apply rstrip_left_clean, lstrip_left_clean. Qed.

Lemma strip_idem (s : pystr) : strip (strip s) = strip s.
Proof.
  unfold strip at 1.
  rewrite (lstrip_fixed (strip s)) by apply strip_left_clean.
  unfold strip. apply rstrip_idem.
Qed.

(** The right end of a stripped text is as clean as the left one. *)
Lemma strip_right_clean (s : pystr) : left_clean (rev (strip s)) = true.
Proof.
  unfold strip, rstrip. rewrite rev_involutive. apply lstrip_left_clean.
Qed.

(** ** The absence test *)

Lemma checknull_absence (x : scalar) :
  checknull x = true <-> absence_marker x.
Proof.
  split.
  - destruct x as [| b | z | f | s]; simpl; try discriminate.
    + constructor.
    + destruct f; try discriminate. constructor.
  - now intros [|].
Qed.

Lemma is_None_checknull (x : scalar) :
  is_None (Scalar x) = true -> checknull x = true.
Proof. now destruct x. Qed.

(** [value is None] can only hold where [pd.isna] is already true. *)
Lemma is_None_isna (v : value) :
  is_None v = true -> truth (pd_isna v) = Ok true.
Proof.
  destruct v as [x | x xs]; simpl; try discriminate.
  intros H. now rewrite (is_None_checknull x H).
Qed.

(** ** Running the helper *)

(** On a scalar the helper is one test and one conversion, and the world
    is handed back as it came. *)
Lemma safe_strip_scalar (x : scalar) (w : world) :
  safe_strip h (Scalar x) w =
  (if checknull x then Ok [] else rmap strip (scalar_str h x), w).
Proof.
  unfold safe_strip, bind, call, ret. simpl.
  destruct (checknull x) eqn:E; trivial.
  destruct x as [| b | z | f | s]; try discriminate; simpl;
    try reflexivity.
  now destruct (int_str h z).
Qed.

(** On any value the helper hands the world back as it came, and what it
    returns or raises does not depend on the world. *)
Lemma safe_strip_frame (v : value) :
  exists r : result pystr, forall w : world, safe_strip h v w = (r, w).
Proof.
  unfold safe_strip, bind, call, ret.
  destruct (truth (pd_isna v)) as [na | e].
  - destruct (if na then true else is_None v).
    + now exists (Ok []).
    + destruct (py_str h v) as [s | e].
      * now exists (Ok (strip s)).
      * now exists (Raise e).
  - now exists (Raise e).
Qed.

Lemma str_returns_ok (x : scalar) :
  str_returns h x = true -> exists s, scalar_str h x = Ok s.
Proof.
  destruct x as [| b | z | f | s]; simpl; intros H; eauto.
  unfold int_str. rewrite H. eauto.
Qed.

Lemma safe_strip_returns_text_aux (x : scalar) :
  str_returns h x = true ->
  exists s : pystr, forall w : world, safe_strip h (Scalar x) w = (Ok s, w).
Proof.
  intros Hx.
  destruct (checknull x) eqn:E.
  - exists []. intros w. rewrite safe_strip_scalar. now rewrite E.
  - destruct (str_returns_ok x Hx) as [s Hs].
    exists (strip s). intros w. rewrite safe_strip_scalar.
    now rewrite E, Hs.
Qed.

(** A list of two elements or more makes the test itself raise. *)
Lemma safe_strip_long_list (x y : scalar) (ys : list scalar) (w : world) :
  safe_strip h (VList x (y :: ys)) w = (Raise ValueError, w).
Proof. reflexivity. Qed.

(** Whatever the helper returns is already stripped. *)
Lemma safe_strip_stripped (v : value) (w w' : world) (s : pystr) :
  safe_strip h v w = (Ok s, w') -> strip s = s.
Proof.
  unfold safe_strip, bind, call, ret.
  destruct (truth (pd_isna v)) as [na | e]; [| discriminate].
  destruct (if na then true else is_None v).
  - intros H. now inversion H.
  - destruct (py_str h v) as [t | e]; [| discriminate].
    intros H. inversion H. apply strip_idem.
Qed.

(** ** The normaliser's contract *)

(** C1. For every absence marker [m] ([None] or the float NaN),
    [safe_strip(m)] returns the empty text, in every world and without
    changing it. *)
Theorem safe_strip_absent (m : scalar) (w : world) :
  absence_marker m -> safe_strip h (Scalar m) w = (Ok [], w).
Proof.
  intros Hm. rewrite safe_strip_scalar.
  apply checknull_absence in Hm. now rewrite Hm.
Qed.

(** C2, as amended. For every scalar (text, absence marker, [bool],
    [float], and [int] within the interpreter's digit limit for [str]),
    [safe_strip] returns a text and raises nothing. *)
Theorem safe_strip_returns_text (x : scalar) (w : world) :
  str_returns h x = true ->
  exists s : pystr, safe_strip h (Scalar x) w = (Ok s, w).
Proof.
  intros Hx. destruct (safe_strip_returns_text_aux x Hx) as [s Hs].
  now exists s.
Qed.

(** C3. For every text [s], [safe_strip(s)] is [s.strip()]; so
    ["  hello world  "] gives ["hello world"]. *)
Theorem safe_strip_text (s : pystr) (w : world) :
  safe_strip h (Scalar (SStr s)) w = (Ok (strip s), w)
  /\ safe_strip h (Scalar (SStr (lit "  hello world  "))) w
     = (Ok (lit "hello world"), w).
Proof.
  split.
  - now rewrite safe_strip_scalar.
  - rewrite safe_strip_scalar. reflexivity.
Qed.

(** C4. For every scalar [x] that is neither text nor an absence marker,
    [safe_strip(x)] is [str(x).strip()]: it returns the stripped text when
    [str(x)] returns, and raises what [str(x)] raises. *)
Theorem safe_strip_other_scalar (x : scalar) (w : world) :
  is_text x = false ->
  ~ absence_marker x ->
  safe_strip h (Scalar x) w = (rmap strip (scalar_str h x), w).
Proof.
  intros _ Hx. rewrite safe_strip_scalar.
  destruct (checknull x) eqn:E; trivial.
  apply checknull_absence in E. contradiction.
Qed.

(** C5. [safe_strip] is idempotent: running it on its own result gives
    that result again, for every value and in every world. *)
Theorem safe_strip_idempotent (v : value) (w : world) :
  (s <- safe_strip h v ;; safe_strip h (Scalar (SStr s))) w = safe_strip h v w.
Proof.
  unfold bind at 1.
  destruct (safe_strip h v w) as [[s | e] w'] eqn:E; trivial.
  rewrite safe_strip_scalar. simpl.
  now rewrite (safe_strip_stripped v w w' s E).
Qed.

(** C6. A missing cell and an empty one are normalised alike:
    [safe_strip(None)] and [safe_strip('')] both return [''], so whatever a
    caller computes from the outcome is the same for both. *)
Theorem safe_strip_missing_as_empty (w : world) :
  safe_strip h (Scalar SNone) w = (Ok [], w)
  /\ safe_strip h (Scalar (SStr [])) w = (Ok [], w)
  /\ forall (A : Type) (caller : result pystr * world -> A),
       caller (safe_strip h (Scalar SNone) w)
       = caller (safe_strip h (Scalar (SStr [])) w).
Proof.
  assert (H1 : safe_strip h (Scalar SNone) w = (Ok [], w))
    by now rewrite safe_strip_scalar.
  assert (H2 : safe_strip h (Scalar (SStr [])) w = (Ok [], w))
    by now rewrite safe_strip_scalar.
  split; [exact H1 | split; [exact H2 |]].
  intros A caller. now rewrite H1, H2.
Qed.

(** C7. The outcome of [safe_strip] has no whitespace at either end:
    stripping what it returns changes nothing, for every value and in
    every world; and a returned text neither starts nor ends with a
    whitespace character. *)
Theorem safe_strip_trimmed (v : value) (w : world) :
  (s <- safe_strip h v ;; ret (strip s)) w = safe_strip h v w
  /\ forall (s : pystr) (w' : world),
       safe_strip h v w = (Ok s, w') ->
       left_clean s = true /\ left_clean (rev s) = true.
Proof.
  split.
  - unfold bind, ret.
    destruct (safe_strip h v w) as [[s | e] w'] eqn:E; trivial.
    now rewrite (safe_strip_stripped v w w' s E).
  - intros s w' E.
    rewrite <- (safe_strip_stripped v w w' s E).
    split; [apply strip_left_clean | apply strip_right_clean].
Qed.

(** C8. [safe_strip] is deterministic and has no side effect: its outcome
    on a value is the same in any two worlds, it leaves the world as it
    found it, and so a call made after another behaves as if made
    first. *)
Theorem safe_strip_pure (v : value) (w1 w2 : world) :
  fst (safe_strip h v w1) = fst (safe_strip h v w2)
  /\ snd (safe_strip h v w1) = w1
  /\ forall v' : value,
       safe_strip h v' (snd (safe_strip h v w1)) = safe_strip h v' w1.
Proof.
  destruct (safe_strip_frame v) as [r Hr].
  rewrite (Hr w1), (Hr w2). simpl. auto.
Qed.

(** C9. A text that spells the sentinel is text, not an absence marker:
    [safe_strip("nan")] is ["nan"] and [safe_strip("NaN")] is ["NaN"]; a
    text is normalised to [''] only when it strips to ['']. *)
Theorem safe_strip_nan_text (w : world) :
  safe_strip h (Scalar (SStr (lit "nan"))) w = (Ok (lit "nan"), w)
  /\ safe_strip h (Scalar (SStr (lit "NaN"))) w = (Ok (lit "NaN"), w)
  /\ (forall s : pystr, ~ absence_marker (SStr s))
  /\ (forall s : pystr,
        safe_strip h (Scalar (SStr s)) w = (Ok [], w) <-> strip s = []).
Proof.
  split; [| split; [| split]].
  - rewrite safe_strip_scalar. reflexivity.
  - rewrite safe_strip_scalar. reflexivity.
  - intros s H. inversion H.
  - intros s. rewrite safe_strip_scalar. simpl. split; intros H.
    + now inversion H.
    + now rewrite H.
Qed.

(** C10. The test [value is None] is redundant: [pd.isna] is already true
    wherever it holds, and [safe_strip] behaves on every value and in
    every world as the helper that tests [pd.isna(value)] alone. *)
Theorem safe_strip_None_test_redundant (v : value) (w : world) :
  (is_None v = true -> truth (pd_isna v) = Ok true)
  /\ safe_strip h v w = safe_strip_isna_only h v w.
Proof.
  split; [apply is_None_isna |].
  unfold safe_strip, safe_strip_isna_only, bind, call, ret.
  destruct (truth (pd_isna v)) as [[|] | e] eqn:E; trivial.
  destruct (is_None v) eqn:N; trivial.
  rewrite (is_None_isna v N) in E. discriminate.
Qed.

(** The three trial lines do write: with scalar fields whose [str] returns
    they add three lines to standard output. *)
Lemma test_the_fix_prints (x1 x2 x3 : scalar) (w : world) :
  str_returns h x1 = true ->
  str_returns h x2 = true ->
  str_returns h x3 = true ->
  exists l1 l2 l3 : pystr,
    test_the_fix h
      {| sender_email := Scalar x1; subject := Scalar x2; body := Scalar x3 |}
      w
    = (Ok tt, w ++ [l1; l2; l3]).
Proof.
  intros H1 H2 H3. unfold test_the_fix. simpl.
  destruct (safe_strip_returns_text_aux x1 H1) as [s1 E1].
  destruct (safe_strip_returns_text_aux x2 H2) as [s2 E2].
  destruct (safe_strip_returns_text_aux x3 H3) as [s3 E3].
  do 3 eexists.
  unfold bind, print. rewrite E1, E2, E3.
  now rewrite <- !app_assoc.
Qed.

End Properties.

(** * Examples *)

(** [safe_strip(float('nan'))] is the empty text. *)
Lemma safe_strip_absent_witness :
  absence_marker (SFloat S754_nan)
  /\ safe_strip example_host (Scalar (SFloat S754_nan)) [] = (Ok [], []).
Proof.
  split.
  - constructor.
  - apply safe_strip_absent. constructor.
Defined.

(** [safe_strip(-7)] returns a text. *)
Lemma safe_strip_returns_text_witness :
  str_returns example_host (SInt (-7)) = true
  /\ exists s : pystr,
       safe_strip example_host (Scalar (SInt (-7))) [] = (Ok s, []).
Proof.
  split.
  - reflexivity.
  - apply safe_strip_returns_text. reflexivity.
Defined.

(** [safe_strip([1, 2])] returns no text, whatever the host and the world:
    [pd.isna([1, 2])] is an array of two booleans, and asking for its truth
    value raises [ValueError]. *)
Lemma safe_strip_list_raises :
  ~ exists (h : host) (w w' : world) (s : pystr),
      safe_strip h (VList (SInt 1) [SInt 2]) w = (Ok s, w').
Proof.
  intros (h & w & w' & s & H).
  rewrite safe_strip_long_list in H. discriminate.
Qed.

(** An [int] of 4301 digits is a scalar on which [str], and so the helper,
    raises under the default limit. *)
Lemma safe_strip_huge_int :
  safe_strip example_host (Scalar (SInt (10 ^ 4300))) []
  = (Raise ValueError, []).
Proof. vm_compute. reflexivity. Qed.

(** [safe_strip(42)] is ["42"]. *)
Lemma safe_strip_other_scalar_witness :
  is_text (SInt 42) = false
  /\ ~ absence_marker (SInt 42)
  /\ safe_strip example_host (Scalar (SInt 42)) [] = (Ok (lit "42"), []).
Proof.
  split; [reflexivity | split].
  - intros H. inversion H.
  - apply (safe_strip_other_scalar example_host (SInt 42) []).
    + reflexivity.
    + intros H. inversion H.
Defined.

(** A few more runs. *)

Example strip_mixed_whitespace :
  strip ([9; 32; 160; 8195] ++ lit "a b" ++ [10; 13; 12288])%N = lit "a b".
Proof. reflexivity. Qed.

Example safe_strip_True :
  safe_strip example_host (Scalar (SBool true)) [] = (Ok (lit "True"), []).
Proof. reflexivity. Qed.

Example safe_strip_minus_inf :
  safe_strip example_host (Scalar (SFloat (S754_infinity true))) []
  = (Ok (lit "-inf"), []).
Proof. reflexivity. Qed.

(** [safe_strip([None])] is the empty text: the array has one entry, and
    it is true. *)
Example safe_strip_list_of_None :
  safe_strip example_host (VList SNone []) [] = (Ok [], []).
Proof. reflexivity. Qed.

(** [safe_strip([5])] is ["[5]"]. *)
Example safe_strip_list_of_5 :
  safe_strip example_host (VList (SInt 5) []) [] = (Ok (lit "[5]"), []).
Proof. reflexivity. Qed.

(** * Further properties *)

(** ** What stripping removes *)

Lemma blank_app (s t : pystr) : blank (s ++ t) = blank s && blank t.
Proof. apply forallb_app. Qed.

Lemma blank_rev (s : pystr) : blank (rev s) = blank s.
Proof.
  induction s as [|c t IH]; trivial.
  simpl. rewrite blank_app, IH. simpl.
  rewrite andb_true_r. apply andb_comm.
Qed.

Lemma lstrip_split (s : pystr) :
  exists l : pystr, s = l ++ lstrip s /\ blank l = true.
Proof.
  induction s as [|c t (l & E & Hl)].
  - now exists [].
  - simpl. destruct (py_isspace c) eqn:Hc.
    + exists (c :: l). simpl. rewrite Hc, Hl. now rewrite <- E.
    + now exists [].
Qed.

Lemma rstrip_split (s : pystr) :
  exists r : pystr, s = rstrip s ++ r /\ blank r = true.
Proof.
  destruct (lstrip_split (rev s)) as (l & E & Hl).
  exists (rev l). split.
  - unfold rstrip. rewrite <- rev_app_distr, <- E. now rewrite rev_involutive.
  - now rewrite blank_rev.
Qed.

(** Stripping takes a blank prefix and a blank suffix away, and nothing
    else. *)
Lemma strip_split (s : pystr) :
  exists l r : pystr,
    s = l ++ strip s ++ r /\ blank l = true /\ blank r = true.
Proof.
  destruct (lstrip_split s) as (l & E & Hl).
  destruct (rstrip_split (lstrip s)) as (r & E' & Hr).
  exists l, r. unfold strip. now rewrite <- E', <- E.
Qed.

Lemma lstrip_blank (s : pystr) : blank s = true -> lstrip s = [].
Proof.
  induction s as [|c t IH]; trivial.
  simpl. destruct (py_isspace c); [auto | discriminate].
Qed.

Lemma strip_nil_blank (s : pystr) : strip s = [] <-> blank s = true.
Proof.
  split; intros H.
  - destruct (strip_split s) as (l & r & E & Hl & Hr).
    rewrite H in E. rewrite E. simpl. now rewrite blank_app, Hl, Hr.
  - unfold strip. now rewrite (lstrip_blank s H).
Qed.

(** A text clean at both ends is left as it is. *)
Lemma strip_fixed (s : pystr) :
  left_clean s = true -> left_clean (rev s) = true -> strip s = s.
Proof.
  intros Hl Hr. unfold strip, rstrip.
  rewrite (lstrip_fixed s Hl), (lstrip_fixed (rev s) Hr).
  apply rev_involutive.
Qed.

(** A text without any whitespace is clean at both ends. *)
Lemma spaceless_left_clean (s : pystr) :
  spaceless s = true -> left_clean s = true.
Proof.
  destruct s as [|c t]; trivial.
  simpl. now intros [H _]%andb_true_iff.
Qed.

Lemma spaceless_rev (s : pystr) : spaceless (rev s) = spaceless s.
Proof.
  unfold spaceless. induction s as [|c t IH]; trivial.
  simpl. rewrite forallb_app, IH. simpl.
  rewrite andb_true_r. apply andb_comm.
Qed.

Lemma strip_spaceless (s : pystr) : spaceless s = true -> strip s = s.
Proof.
  intros H. apply strip_fixed; apply spaceless_left_clean; trivial.
  now rewrite spaceless_rev.
Qed.

Lemma lstrip_blank_app (l s : pystr) :
  blank l = true -> lstrip (l ++ s) = lstrip s.
Proof.
  induction l as [|c t IH]; trivial.
  simpl. destruct (py_isspace c); [auto | discriminate].
Qed.

Lemma lstrip_app_clean (m r : pystr) :
  m <> [] -> left_clean m = true -> lstrip (m ++ r) = m ++ r.
Proof.
  destruct m as [|c t]; [congruence |].
  simpl. intros _ Hc. apply negb_true_iff in Hc. now rewrite Hc.
Qed.

(** The stripped text is the only middle part, clean at both ends, that
    blank ends can surround. *)
Lemma strip_unique (l m r : pystr) :
  blank l = true -> blank r = true ->
  left_clean m = true -> left_clean (rev m) = true ->
  strip (l ++ m ++ r) = m.
Proof.
  intros Hl Hr Hm Hm'. unfold strip.
  rewrite (lstrip_blank_app l (m ++ r) Hl).
  destruct m as [|c t] eqn:E.
  - simpl. now rewrite (lstrip_blank r Hr).
  - rewrite <- E in *. assert (Hne : m <> []) by (rewrite E; discriminate).
    rewrite (lstrip_app_clean m r Hne Hm).
    unfold rstrip. rewrite rev_app_distr.
    rewrite lstrip_blank_app by now rewrite blank_rev.
    rewrite (lstrip_fixed (rev m) Hm'). apply rev_involutive.
Qed.

Lemma strip_surrounded (l s r : pystr) :
  blank l = true -> blank r = true -> strip (l ++ s ++ r) = strip s.
Proof.
  intros Hl Hr.
  destruct (strip_split s) as (l' & r' & E & Hl' & Hr').
  rewrite E at 1.
  replace (l ++ (l' ++ strip s ++ r') ++ r)
    with ((l ++ l') ++ strip s ++ (r' ++ r))
    by now rewrite <- !app_assoc.
  apply strip_unique.
  - now rewrite blank_app, Hl, Hl'.
  - now rewrite blank_app, Hr, Hr'.
  - apply strip_left_clean.
  - apply strip_right_clean.
Qed.

(** ** The decimal text of an [int] *)

Lemma uint_text_spaceless (d : Decimal.uint) :
  spaceless (lit (NilEmpty.string_of_uint d)) = true.
Proof. induction d; simpl; trivial. Qed.

Lemma int_text_spaceless (z : Z) :
  spaceless (lit (NilEmpty.string_of_int (Z.to_int z))) = true.
Proof.
  destruct z as [| p | p]; simpl; trivial; apply uint_text_spaceless.
Qed.

Lemma uint_text_nonempty (d : Decimal.uint) :
  d <> Decimal.Nil -> lit (NilEmpty.string_of_uint d) <> [].
Proof.
  destruct d; intros H; [now elim H | cbn; discriminate ..].
Qed.

Lemma int_text_nonempty (z : Z) :
  lit (NilEmpty.string_of_int (Z.to_int z)) <> [].
Proof.
  destruct z as [| p | p]; cbn; try discriminate.
  apply uint_text_nonempty, Unsigned.to_uint_nonnil.
Qed.

Lemma strip_int_text (z : Z) :
  strip (lit (NilEmpty.string_of_int (Z.to_int z)))
  = lit (NilEmpty.string_of_int (Z.to_int z)).
Proof. apply strip_spaceless, int_text_spaceless. Qed.

Section Further.

Variable h : host.

(** ** The helper, continued *)

(** X1. Whatever [safe_strip] returns is the empty text for a value
    [pd.isna] holds of, and otherwise [str(value)] less a blank prefix and
    a blank suffix: nothing but whitespace at the two ends is dropped. The
    world is left as it was. *)
Theorem safe_strip_slice (v : value) (w w' : world) (out : pystr) :
  safe_strip h v w = (Ok out, w') ->
  w' = w
  /\ ((truth (pd_isna v) = Ok true /\ out = [])
      \/ exists t l r : pystr,
           py_str h v = Ok t
           /\ t = l ++ out ++ r /\ blank l = true /\ blank r = true).
Proof.
  unfold safe_strip, bind, call, ret.
  destruct (truth (pd_isna v)) as [na | e] eqn:E; [| discriminate].
  destruct (if na then true else is_None v) eqn:T.
  - intros H. inversion H. split; trivial. left. split; trivial.
    destruct na; trivial. now rewrite (is_None_isna v T) in E.
  - destruct (py_str h v) as [t | e]; [| discriminate].
    intros H. inversion H. split; trivial. right.
    destruct (strip_split t) as (l & r & Et & Hl & Hr).
    now exists t, l, r.
Qed.

(** X2. A text is returned as it is exactly when it neither starts nor
    ends with a whitespace character. *)
Theorem safe_strip_text_fixed (s : pystr) (w : world) :
  safe_strip h (Scalar (SStr s)) w = (Ok s, w)
  <-> left_clean s = true /\ left_clean (rev s) = true.
Proof.
  rewrite safe_strip_scalar. simpl. split.
  - intros H. assert (E : strip s = s) by congruence.
    rewrite <- E. split; [apply strip_left_clean | apply strip_right_clean].
  - intros [Hl Hr]. now rewrite (strip_fixed s Hl Hr).
Qed.

(** X3. An [int] within the digit limit comes back as its decimal text,
    from which there is nothing to strip; an [int] over the limit makes
    [str], and so the helper, raise [ValueError]. A [bool] comes back as
    [True] or [False]. *)
Theorem safe_strip_int_bool (z : Z) (b : bool) (w : world) :
  safe_strip h (Scalar (SInt z)) w
  = (if int_fits h z
     then Ok (lit (NilEmpty.string_of_int (Z.to_int z)))
     else Raise ValueError, w)
  /\ safe_strip h (Scalar (SBool b)) w
     = (Ok (if b then lit "True" else lit "False"), w).
Proof.
  split.
  - rewrite safe_strip_scalar. simpl. unfold int_str.
    destruct (int_fits h z); trivial.
    simpl. now rewrite strip_int_text.
  - rewrite safe_strip_scalar. now destruct b.
Qed.

(** X4. On a list the helper goes by the length: a list of one absent
    element is taken for absent and gives the empty text, a list of one
    other element gives the bracketed [repr] of the element, and a list of
    two elements or more raises [ValueError] before [str] is reached. *)
Theorem safe_strip_on_list (x : scalar) (xs : list scalar) (w : world) :
  safe_strip h (VList x xs) w
  = (match xs with
     | [] =>
         if checknull x then Ok []
         else rmap (fun r => lit "[" ++ r ++ lit "]") (scalar_repr h x)
     | _ :: _ => Raise ValueError
     end, w).
Proof.
  destruct xs as [| y ys]; [| reflexivity].
  unfold safe_strip, bind, call, ret. simpl.
  destruct (checknull x); trivial.
  destruct (scalar_repr h x) as [r | e]; trivial.
  simpl. f_equal. f_equal.
  change (91 :: r ++ [93])%N with ([91] ++ r ++ [93])%N.
  apply strip_fixed.
  - reflexivity.
  - simpl. rewrite rev_app_distr. reflexivity.
Qed.

(** X5. Which scalars come back empty. On a host whose text for a finite
    float is never blank, the helper returns the empty text for exactly
    the absence markers and the blank texts: no [bool], [int] or other
    [float] is taken for missing. *)
Theorem safe_strip_empty_iff (x : scalar) (w : world) :
  (forall (s : bool) (m : positive) (e : Z),
     blank (float_repr h s m e) = false) ->
  safe_strip h (Scalar x) w = (Ok [], w)
  <-> absence_marker x \/ exists s : pystr, x = SStr s /\ blank s = true.
Proof.
  intros Hf. rewrite safe_strip_scalar.
  destruct x as [| b | z | f | s]; simpl.
  - split; [left; constructor | trivial].
  - split.
    + now destruct b.
    + intros [H | (s & H & _)]; [inversion H | discriminate].
  - split.
    + unfold int_str. destruct (int_fits h z); [| discriminate].
      simpl. rewrite strip_int_text. intros H.
      assert (E : lit (NilEmpty.string_of_int (Z.to_int z)) = [])
        by congruence.
      now apply int_text_nonempty in E.
    + intros [H | (s & H & _)]; [inversion H | discriminate].
  - destruct f as [sg | sg | | sg m e]; simpl.
    + split; [now destruct sg |].
      intros [H | (s & H & _)]; [inversion H | discriminate].
    + split; [now destruct sg |].
      intros [H | (s & H & _)]; [inversion H | discriminate].
    + split; [left; constructor | trivial].
    + split.
      * intros H.
        assert (E : strip (float_repr h sg m e) = []) by congruence.
        apply strip_nil_blank in E. now rewrite Hf in E.
      * intros [H | (s & H & _)]; [inversion H | discriminate].
  - split.
    + intros H. right. exists s. split; trivial.
      apply strip_nil_blank. congruence.
    + intros [H | (t & H & Ht)]; [inversion H |].
      injection H as ->. apply strip_nil_blank in Ht. now rewrite Ht.
Qed.

(** ** The expression that fails, and the helper in its place *)

(** X6. Wherever [email_data.get(key, '').strip()] works, the helper on
    the same field returns the same text: the fix changes nothing for the
    rows that gave no error. *)
Theorem safe_strip_agrees_with_strip
  (email_data : pydict) (key s : pystr) (w : world) :
  get_strip email_data key = Worked s ->
  safe_strip h (dict_get email_data key (Scalar (SStr []))) w = (Ok s, w).
Proof.
  unfold get_strip, attr_strip.
  destruct (dict_get email_data key (Scalar (SStr [])))
    as [[| b | z | f | t] | x xs]; try discriminate.
  intros [= <-]. now rewrite safe_strip_scalar.
Qed.

(** X7. [email_data.get(key, '').strip()] fails exactly when the row has
    the key with a value that is not a text, and the message names the
    type of that value; a key the row does not have gives the empty
    text. *)
Theorem get_strip_failure (email_data : pydict) (key : pystr) :
  (forall message : pystr,
     get_strip email_data key = Failed message
     <-> exists v : value,
           dict_lookup email_data key = Some v
           /\ (forall s : pystr, v <> Scalar (SStr s))
           /\ message = no_strip_message v)
  /\ (dict_lookup email_data key = None ->
      get_strip email_data key = Worked []).
Proof.
  unfold get_strip, dict_get.
  destruct (dict_lookup email_data key) as [v |]; split; trivial.
  - intros message. split.
    + intros H. exists v. split; trivial.
      destruct v as [[| b | z | f | t] | x xs]; simpl in H;
        try discriminate; split; try discriminate; congruence.
    + intros (v' & [= <-] & Hv & ->).
      destruct v as [[| b | z | f | t] | x xs]; trivial.
      now elim (Hv t).
  - discriminate.
  - intros message. split; [discriminate |].
    intros (v & H & _). discriminate.
Qed.

(** X8. The error the script is about: on a row whose field is a [float],
    the missing cell's NaN among them, the expression fails with
    ['float' object has no attribute 'strip'], and on the missing cell the
    helper returns the empty text instead. *)
Theorem float_cell_error
  (email_data : pydict) (key : pystr) (f : spec_float) (w : world) :
  dict_lookup email_data key = Some (Scalar (SFloat f)) ->
  get_strip email_data key
  = Failed (lit "'float' object has no attribute 'strip'")
  /\ (f = S754_nan ->
      safe_strip h (dict_get email_data key (Scalar (SStr []))) w
      = (Ok [], w)).
Proof.
  intros H. unfold get_strip, dict_get. rewrite H. split; trivial.
  intros ->. now rewrite safe_strip_scalar.
Qed.

(** ** The trial of the helper (lines 54 to 56) *)

(** X9. The trial normalises [sender_email], [subject] and [body] in that
    order, printing one line for each, and stops at the first field the
    helper raises on: the lines of the fields before it stay printed, and
    what the helper raised is raised. *)
Theorem test_the_fix_outcome (e : email) (w : world) :
  test_the_fix h e w
  = match fst (safe_strip h (sender_email e) []) with
    | Raise err => (Raise err, w)
    | Ok s1 =>
        let l1 := check_mark ++ lit " Fixed sender_email: " ++ str_repr h s1 in
        match fst (safe_strip h (subject e) []) with
        | Raise err => (Raise err, w ++ [l1])
        | Ok s2 =>
            let l2 := check_mark ++ lit " Fixed subject: " ++ str_repr h s2 in
            match fst (safe_strip h (body e) []) with
            | Raise err => (Raise err, w ++ [l1; l2])
            | Ok s3 =>
                let l3 := check_mark ++ lit " Fixed body: " ++ str_repr h s3 in
                (Ok tt, w ++ [l1; l2; l3])
            end
        end
    end.
Proof.
  destruct (safe_strip_frame h (sender_email e)) as [r1 E1].
  destruct (safe_strip_frame h (subject e)) as [r2 E2].
  destruct (safe_strip_frame h (body e)) as [r3 E3].
  unfold test_the_fix, bind, print.
  rewrite !E1. simpl. destruct r1 as [s1 | err]; trivial.
  rewrite !E2. simpl. destruct r2 as [s2 | err]; trivial.
  rewrite !E3. simpl.
  destruct r3 as [s3 | err]; now rewrite <- ?app_assoc.
Qed.

(** X10. Two texts that differ only in the whitespace around them are
    normalised alike: blank text put before and after a cell does not
    change what the helper returns for it. *)
Theorem safe_strip_surrounded (l s r : pystr) (w : world) :
  blank l = true -> blank r = true ->
  safe_strip h (Scalar (SStr (l ++ s ++ r))) w
  = safe_strip h (Scalar (SStr s)) w.
Proof.
  intros Hl Hr. rewrite !safe_strip_scalar. simpl.
  now rewrite (strip_surrounded l s r Hl Hr).
Qed.

End Further.

(** * Further examples *)

(** [safe_strip(' Re: lunch ')] keeps the inner blank and drops the two
    outer ones. *)
Lemma safe_strip_slice_witness :
  safe_strip example_host (Scalar (SStr (lit " Re: lunch "))) []
  = (Ok (lit "Re: lunch"), [])
  /\ exists t l r : pystr,
       py_str example_host (Scalar (SStr (lit " Re: lunch "))) = Ok t
       /\ t = l ++ lit "Re: lunch" ++ r
       /\ blank l = true /\ blank r = true.
Proof.
  assert (E : safe_strip example_host (Scalar (SStr (lit " Re: lunch "))) []
              = (Ok (lit "Re: lunch"), [])) by reflexivity.
  split; [exact E |].
  destruct (safe_strip_slice example_host _ [] [] (lit "Re: lunch") E)
    as [_ [[_ H] | H]]; [discriminate H | exact H].
Defined.

(** On a host with a text for floats, [safe_strip(1.5)] (the float of
    mantissa 3 and exponent -1) is not empty, and [safe_strip('  ')] is. *)
Lemma safe_strip_empty_iff_witness :
  (forall (s : bool) (m : positive) (e : Z),
     blank (float_repr example_host_floats s m e) = false)
  /\ (safe_strip example_host_floats (Scalar (SStr (lit "  "))) []
      = (Ok [], [])
      <-> absence_marker (SStr (lit "  "))
          \/ exists s : pystr, SStr (lit "  ") = SStr s /\ blank s = true).
Proof.
  split.
  - reflexivity.
  - apply safe_strip_empty_iff. reflexivity.
Defined.

(** The [subject] of the example row: the expression works, and the helper
    returns the same text. *)
Lemma safe_strip_agrees_with_strip_witness :
  get_strip example_row (lit "subject") = Worked (lit "Re: lunch")
  /\ safe_strip example_host
       (dict_get example_row (lit "subject") (Scalar (SStr []))) []
     = (Ok (lit "Re: lunch"), []).
Proof.
  split.
  - reflexivity.
  - apply safe_strip_agrees_with_strip. reflexivity.
Defined.

(** The [sender_email] of the example row: the expression fails on the
    float, and the helper returns the empty text. *)
Lemma float_cell_error_witness :
  dict_lookup example_row (lit "sender_email")
  = Some (Scalar (SFloat S754_nan))
  /\ get_strip example_row (lit "sender_email")
     = Failed (lit "'float' object has no attribute 'strip'")
  /\ safe_strip example_host
       (dict_get example_row (lit "sender_email") (Scalar (SStr []))) []
     = (Ok [], []).
Proof.
  destruct (float_cell_error example_host example_row (lit "sender_email")
              S754_nan [] eq_refl) as [H1 H2].
  split; [reflexivity | split; [exact H1 | exact (H2 eq_refl)]].
Defined.

(** A tab before and a line end after [a b] change nothing. *)
Lemma safe_strip_surrounded_witness :
  blank [9%N] = true /\ blank [13%N; 10%N] = true
  /\ safe_strip example_host
       (Scalar (SStr ([9%N] ++ lit "a b" ++ [13%N; 10%N]))) []
     = safe_strip example_host (Scalar (SStr (lit "a b"))) [].
Proof.
  split; [reflexivity | split; [reflexivity |]].
  apply safe_strip_surrounded; reflexivity.
Defined.

(** The example row has no [reply_to]: the expression gives the empty
    text. *)
Example get_strip_missing_key :
  get_strip example_row (lit "reply_to") = Worked [].
Proof. reflexivity. Qed.

(** A row whose [subject] is a list of two: the line for [sender_email]
    is printed, then [ValueError] is raised. *)
Example test_the_fix_stops :
  test_the_fix example_host
    {| subject := VList (SInt 1) [SInt 2];
       body := Scalar (SStr (lit "x"));
       sender_email := Scalar (SFloat S754_nan) |} []
  = (Raise ValueError, [check_mark ++ lit " Fixed sender_email: "]).
Proof. reflexivity. Qed.
